(** * DuneGuide: the retrieval and prompt pipeline of [app.py]

    A shallow embedding of [src/app.py] (a Streamlit front end over a Chroma
    vector store and a hosted generative model) and the properties of its
    retrieval, prompt composition and conversation log.

    Conventions.
    - A Python [str] is a [string]: the UTF-8 bytes of the text.  Every
      character the program tests for or inserts is ASCII, and an ASCII byte
      never occurs inside a multi-byte UTF-8 sequence, so removing the bytes
      39 and 34 is removing the code points U+0027 and U+0022.
    - A Python [int] is a [Z].
    - [st.session_state] and the on-disk Chroma store are finite maps.
    - Effects are threaded through a state monad with exceptions; a raised
      exception keeps the state reached so far, as in Python.
    - The collaborators the program only calls (the similarity search of the
      vector store, the generative model, the process environment) are the
      fields of a record [Services] over which everything is quantified. *)

From stdpp Require Import gmap strings list.
From Stdlib Require Import ZArith Ascii.

(** ** Python strings *)

Module PyStr.

Definition nl : string := String (ascii_of_nat 10) EmptyString.
Definition single_quote : ascii := ascii_of_nat 39.
Definition double_quote : ascii := ascii_of_nat 34.
Definition char (c : ascii) : string := String c EmptyString.

(** [bool(s)]: a string is truthy when it is not empty. *)
Definition truthy (s : string) : bool :=
  match s with
  | EmptyString => false
  | String _ _ => true
  end.

(** [sep.join(parts)]. *)
Definition join (sep : string) (parts : list string) : string :=
  String.concat sep parts.

(** [s.replace(old, new)] for a non-empty [old]: the occurrences of [old]
    are found from the left and do not overlap; [skip] counts the
    characters of the occurrence just replaced that are still to be
    dropped. *)
Fixpoint replace_from (old new : string) (skip : nat) (s : string) : string :=
  match s with
  | EmptyString => EmptyString
  | String c s' =>
      match skip with
      | S k => replace_from old new k s'
      | O =>
          if String.prefix old s
          then new +:+ replace_from old new (String.length old - 1) s'
          else String c (replace_from old new 0 s')
      end
  end.

(** [s.replace(old, new)] for the empty [old]: [new] goes before every
    character and at the end. *)
Fixpoint replace_empty (new : string) (s : string) : string :=
  match s with
  | EmptyString => new
  | String c s' => new +:+ String c (replace_empty new s')
  end.

Definition replace (old new s : string) : string :=
  match old with
  | EmptyString => replace_empty new s
  | String _ _ => replace_from old new 0 s
  end.

(** Deleting every occurrence of one character. *)
Fixpoint remove_char (c : ascii) (s : string) : string :=
  match s with
  | EmptyString => EmptyString
  | String a s' =>
      if Ascii.eqb a c then remove_char c s' else String a (remove_char c s')
  end.

(** [c in s] for a character. *)
Fixpoint occurs (c : ascii) (s : string) : bool :=
  match s with
  | EmptyString => false
  | String a s' => Ascii.eqb a c || occurs c s'
  end.

(** [sub in s]: [sub] is a prefix of some suffix of [s]. *)
Fixpoint contains (sub s : string) : bool :=
  String.prefix sub s
  || match s with
     | EmptyString => false
     | String _ s' => contains sub s'
     end.

End PyStr.

(** ** Prompt composition *)

(** The three constant pieces of the f-string of [make_prompt]: the text
    before [{query}], the text between [{query}] and [{escaped}], and the
    text after [{escaped}].  The literal starts with a line break, its lines
    are indented by four spaces, and four of them end in a space. *)
Definition prompt_head : string :=
  PyStr.nl
  +:+ "    You are a chatbot specializing in helping users find deals for tourist attractions in Dubai. "
  +:+ PyStr.nl
  +:+ PyStr.nl
  +:+ "    User's question: ".

Definition prompt_middle : string :=
  PyStr.nl
  +:+ PyStr.nl
  +:+ "    Context information about available deals:"
  +:+ PyStr.nl
  +:+ "    ".

Definition prompt_tail : string :=
  PyStr.nl
  +:+ PyStr.nl
  +:+ "    Your response must be detailed, friendly, and helpful. "
  +:+ PyStr.nl
  +:+ "    Provide recommendations for deals related to the user's query, including:"
  +:+ PyStr.nl
  +:+ "    - Attraction name"
  +:+ PyStr.nl
  +:+ "    - Deal description"
  +:+ PyStr.nl
  +:+ "    - Price (in AED and USD, assuming a fixed exchange rate)"
  +:+ PyStr.nl
  +:+ "    - Relevant tips (e.g., operating hours, best visit times, nearby attractions)"
  +:+ PyStr.nl
  +:+ PyStr.nl
  +:+ "    Ensure the response is conversational and encourages the user to ask follow-up questions. "
  +:+ PyStr.nl
  +:+ "    Also note that for Burj Khalifa only return Burj Khalifa deals and for burj al arab only return burj al arab deals. "
  +:+ PyStr.nl
  +:+ "    ".

(** The local [escaped] of [make_prompt]: two chained [replace] calls, the
    first deleting the single quote, the second the double quote. *)
Definition escaped (relevant_passage : string) : string :=
  PyStr.replace (PyStr.char PyStr.double_quote) ""
    (PyStr.replace (PyStr.char PyStr.single_quote) "" relevant_passage).

Definition make_prompt (query relevant_passage : string) : string :=
  let escaped := escaped relevant_passage in
  let prompt :=
    prompt_head +:+ query +:+ prompt_middle +:+ escaped +:+ prompt_tail in
  prompt.

Definition convert_passages_to_string (passages : list string) : string :=
  let context := PyStr.join PyStr.nl passages in
  context.

(** The composer as the specification words it: join the passages with line
    breaks, delete the two quote characters, fill the template. *)
Definition strip_quotes (s : string) : string :=
  PyStr.remove_char PyStr.double_quote (PyStr.remove_char PyStr.single_quote s).

Definition compose_spec (query : string) (passages : list string) : string :=
  prompt_head +:+ query +:+ prompt_middle
  +:+ strip_quotes (String.concat PyStr.nl passages) +:+ prompt_tail.

(** ** State, exceptions and collaborators *)

(** A raised Python exception of class [Exception], by its [str(e)]. *)
Inductive exn : Type :=
| Exception (msg : string).

Definition str_exn (e : exn) : string :=
  match e with
  | Exception msg => msg
  end.

(** What a call does: it returns a value or raises. *)
Inductive outcome (A : Type) : Type :=
| Return (a : A)
| Raise (e : exn).

Arguments Return {A} a.
Arguments Raise {A} e.

(** One entry of the conversation history: the dict with the keys [role]
    and [content]. *)
Record message : Type := Message {
  role : string;
  content : string
}.

(** The result of [db.query]: of its keys only [documents] is read.  It holds
    one list of documents per query text, or [None]. *)
Record QueryResult : Type := {
  documents : option (list (list string))
}.

(** The class [GeminiEmbeddingFunction]: its fixed model, task type and
    title.  The vectors it produces stay inside the vector store. *)
Record EmbeddingFunction : Type := {
  ef_model : string;
  ef_task_type : string;
  ef_title : string
}.

Definition GeminiEmbeddingFunction : EmbeddingFunction :=
  {| ef_model := "models/embedding-001";
     ef_task_type := "retrieval_document";
     ef_title := "Custom query" |}.

(** A Chroma client on a directory, and a handle on one of its collections. *)
Record PersistentClient : Type := {
  path : string
}.

Record Collection : Type := {
  client : PersistentClient;
  name : string;
  embedding_function : EmbeddingFunction
}.

(** What the program observes of its collaborators, in the order of the
    calls. *)
Inductive event : Type :=
| EvConfigure (api_key : option string)
| EvQuery (db : Collection) (query_texts : list string) (n_results : Z)
| EvError (body : string)
| EvGenerate (model_name prompt : string)
| EvMarkdown (body : string).

(** The collaborators.  [similarity] is the nearest-neighbour search of the
    store over the documents of a collection: it answers with a result (a
    falsy one is [None]) or raises.  [generate_content] is the text of the
    model's response, or the exception the call raises.  [environ] is the
    process environment once the dotenv file is loaded. *)
Record Services : Type := {
  environ : gmap string string;
  similarity :
    EmbeddingFunction -> list string -> list string -> Z ->
    outcome (option QueryResult);
  generate_content : string -> string -> outcome string
}.

(** The state a run of the script works on: the session state of Streamlit,
    which outlives the run; the collections of the persistent store, by
    directory and name; the trace of the calls made so far. *)
Record state : Type := {
  session_state : gmap string (list message);
  database : gmap (string * string) (list string);
  trace : list event
}.

Definition M (A : Type) : Type := state -> outcome A * state.

Definition ret {A : Type} (a : A) : M A := fun s => (Return a, s).

Definition raise {A : Type} (e : exn) : M A := fun s => (Raise e, s).

Definition bind {A B : Type} (m : M A) (k : A -> M B) : M B :=
  fun s =>
    match m s with
    | (Return a, s') => k a s'
    | (Raise e, s') => (Raise e, s')
    end.

(** [try: body except Exception as e: handler]. *)
Definition try_except {A : Type} (body : M A) (handler : exn -> M A) : M A :=
  fun s =>
    match body s with
    | (Return a, s') => (Return a, s')
    | (Raise e, s') => handler e s'
    end.

Declare Scope py_scope.
Delimit Scope py_scope with py.
Notation "x <- m ;; k" := (bind m (fun x => k))
  (at level 100, m at next level, right associativity) : py_scope.
Notation "m ;; k" := (bind m (fun _ => k))
  (at level 100, right associativity) : py_scope.
Local Open Scope py_scope.

Definition emit (ev : event) : M unit :=
  fun s =>
    (Return tt,
     {| session_state := session_state s;
        database := database s;
        trace := trace s ++ [ev] |}).

Definition get_session : M (gmap string (list message)) :=
  fun s => (Return (session_state s), s).

Definition put_session (ss : gmap string (list message)) : M unit :=
  fun s =>
    (Return tt,
     {| session_state := ss; database := database s; trace := trace s |}).

Definition get_database : M (gmap (string * string) (list string)) :=
  fun s => (Return (database s), s).

Definition put_database (d : gmap (string * string) (list string)) : M unit :=
  fun s =>
    (Return tt,
     {| session_state := session_state s; database := d; trace := trace s |}).

(** [from_outcome o]: the call whose outcome is [o]. *)
Definition from_outcome {A : Type} (o : outcome A) : M A :=
  fun s => (o, s).

(** *** Streamlit *)

Module st.

Definition key : string := "conversation_history".

(** [st.session_state[k]]: a missing key raises. *)
Definition getitem (k : string) : M (list message) :=
  ss <- get_session ;;
  match ss !! k with
  | Some v => ret v
  | None => raise (Exception ("KeyError: " +:+ k))
  end.

(** [st.session_state[k] = v]. *)
Definition setitem (k : string) (v : list message) : M unit :=
  ss <- get_session ;;
  put_session (<[k := v]> ss).

(** [k in st.session_state]. *)
Definition contains (k : string) : M bool :=
  ss <- get_session ;;
  ret (bool_decide (is_Some (ss !! k))).

(** [st.session_state[k].append(m)]: the list held under [k] is changed in
    place, so the session state sees the longer list. *)
Definition append (k : string) (m : message) : M unit :=
  l <- getitem k ;;
  setitem k (l ++ [m]).

Definition error (body : string) : M unit := emit (EvError body).

Definition markdown (body : string) : M unit := emit (EvMarkdown body).

End st.

(** *** Chroma *)

Module chromadb.

(** Modelled from the spec: the client library is not part of the
    repository.  Section 4.2 words its contract as opening a persistent
    collection identified by a name, creating it if absent: an existing
    collection is left as it is, a missing one is created empty. *)
Definition get_or_create_collection
    (c : PersistentClient) (nm : string) (ef : EmbeddingFunction)
  : M Collection :=
  d <- get_database ;;
  (match d !! (path c, nm) with
   | Some _ => ret tt
   | None => put_database (<[(path c, nm) := []]> d)
   end) ;;
  ret {| client := c; name := nm; embedding_function := ef |}.

(** [db.query(query_texts=..., n_results=...)]: the search runs over the
    documents the collection holds when it is called. *)
Definition query (svc : Services) (db : Collection)
    (query_texts : list string) (n_results : Z)
  : M (option QueryResult) :=
  emit (EvQuery db query_texts n_results) ;;
  d <- get_database ;;
  match d !! (path (client db), name db) with
  | Some docs =>
      from_outcome
        (similarity svc (embedding_function db) docs query_texts n_results)
  | None => raise (Exception "Collection does not exist")
  end.

End chromadb.

(** *** The generative model *)

Module genai.

Definition configure (api_key : option string) : M unit :=
  emit (EvConfigure api_key).

(** [GenerativeModel(model_name).generate_content(prompt).text]. *)
Definition generate (svc : Services) (model_name prompt : string) : M string :=
  emit (EvGenerate model_name prompt) ;;
  from_outcome (generate_content svc model_name prompt).

End genai.


(** ** The program *)

Section Program.

Variable svc : Services.

(** [bool(result and result['documents'])]: the result is truthy, and so is
    its list of document lists (neither [None] nor empty). *)
Definition has_documents (result : option QueryResult) : bool :=
  match result with
  | Some r =>
      match documents r with
      | Some (_ :: _) => true
      | Some [] => false
      | None => false
      end
  | None => false
  end.

(** [result['documents'][0]]. *)
Definition first_documents (result : option QueryResult) : M (list string) :=
  match result with
  | Some r =>
      match documents r with
      | Some docs =>
          match docs !! 0%nat with
          | Some d => ret d
          | None => raise (Exception "IndexError: list index out of range")
          end
      | None => raise (Exception "TypeError: 'NoneType' object is not subscriptable")
      end
  | None => raise (Exception "TypeError: 'NoneType' object is not subscriptable")
  end.

(** [get_relevant_passages(query, db, n_results=10)]; [None] for
    [n_results] is the call that leaves the argument out. *)
Definition get_relevant_passages
    (query : string) (db : Collection) (n_results : option Z)
  : M (option (list string)) :=
  let n_results := default 10%Z n_results in
  try_except
    (result <- chromadb.query svc db [query] n_results ;;
     if has_documents result
     then d <- first_documents result ;; ret (Some d)
     else ret None)
    (fun e =>
       st.error ("Error querying database: " +:+ str_exn e) ;;
       ret None).

Definition setUpGoogleAPI : M unit :=
  let api_key := environ svc !! "GEMINI_API_KEY" in
  genai.configure api_key.

Definition loadVectorDataBase : M Collection :=
  let chroma_client := {| path := "../database/" |} in
  db <- chromadb.get_or_create_collection
          chroma_client "sme_db" GeminiEmbeddingFunction ;;
  ret db.

Definition fallback_text : string :=
  "Sorry, I couldn't find any relevant deals. Please try another query!".

Fixpoint for_each {A : Type} (l : list A) (body : A -> M unit) : M unit :=
  match l with
  | [] => ret tt
  | x :: l' => body x ;; for_each l' body
  end.

(** The body of the display loop of [main]. *)
Definition display (m : message) : M unit :=
  if bool_decide (role m = "user")
  then st.markdown ("**You:** " +:+ content m)
  else st.markdown ("**DuneGuide:** " +:+ content m).

(** [main()], for the value [user_query] the text input holds in this run.
    The page configuration, the title and the welcome text are written to the
    page and read by nothing; they are left out.  The test [if passages:] is
    the [match]: a non-empty list is truthy, the empty list and [None] are
    not. *)
Definition main (user_query : string) : M unit :=
  setUpGoogleAPI ;;
  db <- loadVectorDataBase ;;
  present <- st.contains st.key ;;
  (if negb present then st.setitem st.key [] else ret tt) ;;
  (if PyStr.truthy user_query then
     st.append st.key {| role := "user"; content := user_query |} ;;
     passages <- get_relevant_passages user_query db (Some 5%Z) ;;
     match passages with
     | Some ((_ :: _) as passages) =>
         let context := convert_passages_to_string passages in
         let prompt := make_prompt user_query context in
         response_text <- genai.generate svc "gemini-pro" prompt ;;
         st.append st.key {| role := "assistant"; content := response_text |}
     | Some [] | None =>
         let response_text := fallback_text in
         st.append st.key {| role := "assistant"; content := response_text |}
     end
   else ret tt) ;;
  history <- st.getitem st.key ;;
  for_each history display.

End Program.

(** ** Observations on states and traces *)

(** The conversation log: the list held under the history key. *)
Definition conversation_log (s : state) : list message :=
  default [] (session_state s !! st.key).

Definition is_generate (ev : event) : bool :=
  match ev with
  | EvGenerate _ _ => true
  | _ => false
  end.

Definition generation_calls (tr : list event) : list event :=
  List.filter is_generate tr.

Definition query_requests (tr : list event) : list (list string * Z) :=
  omap (fun ev =>
          match ev with
          | EvQuery _ texts n => Some (texts, n)
          | _ => None
          end) tr.

Definition warnings (tr : list event) : list string :=
  omap (fun ev =>
          match ev with
          | EvError body => Some body
          | _ => None
          end) tr.

Definition rendered (tr : list event) : list string :=
  omap (fun ev =>
          match ev with
          | EvMarkdown body => Some body
          | _ => None
          end) tr.

(** The state a session starts in: nothing in the session state, an empty
    trace, any store. *)
Definition session_start (d : gmap (string * string) (list string)) : state :=
  {| session_state := ∅; database := d; trace := [] |}.

(** ** Vocabulary of the properties *)

(** The handle [loadVectorDataBase] returns: fixed directory, fixed name. *)
Definition the_collection : Collection :=
  {| client := {| path := "../database/" |};
     name := "sme_db";
     embedding_function := GeminiEmbeddingFunction |}.

(** The store once the collection of [the_collection] is opened. *)
Definition opened (d : gmap (string * string) (list string))
  : gmap (string * string) (list string) :=
  match d !! ("../database/", "sme_db") with
  | Some _ => d
  | None => <[("../database/", "sme_db") := []]> d
  end.

(** The answer of the backend to a query over the store [d]. *)
Definition answer (svc : Services) (db : Collection)
    (d : gmap (string * string) (list string))
    (query_texts : list string) (n_results : Z)
  : outcome (option QueryResult) :=
  match d !! (path (client db), name db) with
  | Some docs =>
      similarity svc (embedding_function db) docs query_texts n_results
  | None => Raise (Exception "Collection does not exist")
  end.

(** The same, as the outcome of the call [db.query] in the state [s]. *)
Definition store_answer (svc : Services) (db : Collection)
    (query_texts : list string) (n_results : Z) (s : state)
  : outcome (option QueryResult) :=
  fst (chromadb.query svc db query_texts n_results s).

(** All the documents a result carries, over all its query texts. *)
Definition returned_documents (result : option QueryResult) : list string :=
  match result with
  | Some r => concat (default [] (documents r))
  | None => []
  end.

(** What the retriever makes of an answer. *)
Definition passages_of (o : outcome (option QueryResult))
  : option (list string) :=
  match o with
  | Return (Some r) =>
      match documents r with
      | Some (d :: _) => Some d
      | Some [] => None
      | None => None
      end
  | Return None => None
  | Raise _ => None
  end.

Definition warning_text (e : exn) : string :=
  "Error querying database: " +:+ str_exn e.

Definition warning_of {A : Type} (o : outcome A) : list event :=
  match o with
  | Return _ => []
  | Raise e => [EvError (warning_text e)]
  end.

Definition with_trace (s : state) (evs : list event) : state :=
  {| session_state := session_state s;
     database := database s;
     trace := trace s ++ evs |}.

(** The state in which [main] calls the retriever, as far as the store
    goes, and what the retriever returns to [main] there. *)
Definition loaded (s : state) : state := snd (loadVectorDataBase s).

Definition retrieved (svc : Services) (user_query : string) (s : state)
  : outcome (option (list string)) :=
  fst (get_relevant_passages svc user_query the_collection (Some 5%Z) (loaded s)).

(** The label of a role on the page, and the text put on the page for a
    message. *)
Definition role_label (r : string) : string :=
  if bool_decide (r = "user") then "You:" else "DuneGuide:".

Definition line (m : message) : string :=
  "**" +:+ role_label (role m) +:+ "** " +:+ content m.

Definition user_message (text : string) : message :=
  {| role := "user"; content := text |}.

Definition assistant_message (text : string) : message :=
  {| role := "assistant"; content := text |}.

(** What a run of [main] comes to, case by case. *)
Definition main_result (svc : Services) (user_query : string) (s : state)
  : outcome unit * state :=
  let d := opened (database s) in
  let log0 := conversation_log s in
  let cfg := EvConfigure (environ svc !! "GEMINI_API_KEY") in
  let finish (log : list message) (evs : list event) :=
    (Return tt,
     {| session_state := <[st.key := log]> (session_state s);
        database := d;
        trace := trace s ++ cfg :: evs
                 ++ map (fun m => EvMarkdown (line m)) log |}) in
  if PyStr.truthy user_query then
    let o := answer svc the_collection d [user_query] 5%Z in
    let asked := EvQuery the_collection [user_query] 5%Z :: warning_of o in
    match passages_of o with
    | Some ((_ :: _) as passages) =>
        let prompt :=
          make_prompt user_query (convert_passages_to_string passages) in
        let calls := asked ++ [EvGenerate "gemini-pro" prompt] in
        match generate_content svc "gemini-pro" prompt with
        | Return response_text =>
            finish
              (log0 ++ [user_message user_query;
                        assistant_message response_text])
              calls
        | Raise e =>
            (Raise e,
             {| session_state :=
                  <[st.key := log0 ++ [user_message user_query]]>
                    (session_state s);
                database := d;
                trace := trace s ++ cfg :: calls |})
        end
    | Some [] | None =>
        finish
          (log0 ++ [user_message user_query; assistant_message fallback_text])
          asked
    end
  else finish log0 [].

(** *** The ordering of the conversation log *)

(** The invariant as worded: a user message that is not the last one is
    followed by an assistant message. *)
Definition log_ordered (log : list message) : Prop :=
  forall (i : nat) (m : message),
    log !! i = Some m -> role m = "user" -> (S i < length log)%nat ->
    exists m', log !! S i = Some m' /\ role m' = "assistant".

(** A log made of whole turns: a user message, then its one answer. *)
Inductive paired : list message -> Prop :=
| paired_nil : paired []
| paired_turn (log : list message) (q r : string) :
    paired log ->
    paired (log ++ [user_message q; assistant_message r]).

(** A session: successive runs of the script on the state the previous run
    left, each with the collaborators as they are then and the text the input
    holds.  A run that raises leaves what it had done. *)
Fixpoint session (runs : list (Services * string)) (s : state) : state :=
  match runs with
  | [] => s
  | (svc, q) :: rest => session rest (snd (main svc q s))
  end.

(** Every run of the session completes: none is ended by an exception. *)
Fixpoint all_complete (runs : list (Services * string)) (s : state) : Prop :=
  match runs with
  | [] => True
  | (svc, q) :: rest =>
      fst (main svc q s) = Return tt /\ all_complete rest (snd (main svc q s))
  end.

(** *** Concrete collaborators *)

Module Examples.

(** A store that answers with the first [n_results] documents it holds. *)
Definition nearest (_ : EmbeddingFunction) (docs query_texts : list string)
    (n_results : Z) : outcome (option QueryResult) :=
  Return (Some {| documents := Some [take (Z.to_nat n_results) docs] |}).

Definition unreachable (_ : EmbeddingFunction) (docs query_texts : list string)
    (n_results : Z) : outcome (option QueryResult) :=
  Raise (Exception "connection refused").

(** Everything works. *)
Definition svc_live : Services :=
  {| environ := {["GEMINI_API_KEY" := "k"]};
     similarity := nearest;
     generate_content := fun _ _ => Return "Here are today's deals." |}.

(** The vector store cannot be reached. *)
Definition svc_no_store : Services :=
  {| environ := {["GEMINI_API_KEY" := "k"]};
     similarity := unreachable;
     generate_content := fun _ _ => Return "Here are today's deals." |}.

(** The model cannot be reached. *)
Definition svc_no_model : Services :=
  {| environ := {["GEMINI_API_KEY" := "k"]};
     similarity := nearest;
     generate_content := fun _ _ => Raise (Exception "503 unavailable") |}.

Definition deals : list string :=
  ["Burj Khalifa: 'At the Top' ticket, 149 AED";
   "Desert safari " +:+ PyStr.char PyStr.double_quote +:+ "VIP"
     +:+ PyStr.char PyStr.double_quote +:+ " evening tour, 250 AED";
   "Burj Al Arab: afternoon tea, 600 AED"].

(** A new session over an empty store, and over a store with three deals. *)
Definition empty_store : state := session_start ∅.

Definition stocked_store : state :=
  session_start {[("../database/", "sme_db") := deals]}.

End Examples.

(** ** Vocabulary of the further properties *)

(** The character the passages are joined with. *)
Definition line_break : ascii := ascii_of_nat 10.

(** The number of occurrences of a character in a text. *)
Fixpoint count_char (c : ascii) (s : string) : nat :=
  match s with
  | EmptyString => 0
  | String a s' => (if Ascii.eqb a c then 1 else 0) + count_char c s'
  end.

Definition quote_count (s : string) : nat :=
  count_char PyStr.single_quote s + count_char PyStr.double_quote s.

Definition quote_free (s : string) : Prop :=
  PyStr.occurs PyStr.single_quote s = false
  /\ PyStr.occurs PyStr.double_quote s = false.

Definition newline_free (s : string) : Prop :=
  PyStr.occurs line_break s = false.

(** The lengths of the passages, added up. *)
Fixpoint total_length (passages : list string) : nat :=
  match passages with
  | [] => 0
  | p :: rest => String.length p + total_length rest
  end.

Definition configure_calls (tr : list event) : list (option string) :=
  omap (fun ev =>
          match ev with
          | EvConfigure api_key => Some api_key
          | _ => None
          end) tr.

(** The texts of the user messages of a log, in order. *)
Definition is_user (m : message) : bool := bool_decide (role m = "user").

Definition user_contents (log : list message) : list string :=
  map content (List.filter is_user log).

(** The queries of a session: the inputs that are not empty, in order. *)
Definition submitted (runs : list (Services * string)) : list string :=
  List.filter PyStr.truthy (map snd runs).

(** ** Facts on strings *)

Section StringFacts.

Implicit Types (s t u : string) (c a : ascii).

Lemma str_app_nil_l s : "" +:+ s = s.
Proof. reflexivity. Qed.

Lemma str_app_cons c s t : String c s +:+ t = String c (s +:+ t).
Proof. reflexivity. Qed.

Lemma str_app_assoc s t u : (s +:+ t) +:+ u = s +:+ (t +:+ u).
Proof. induction s as [|c s IH]; [done|]. by rewrite !str_app_cons, IH. Qed.

Lemma str_length_app s t :
  String.length (s +:+ t) = (String.length s + String.length t)%nat.
Proof. induction s as [|c s IH]; [done|]. rewrite str_app_cons. simpl. by rewrite IH. Qed.

Lemma str_prefix_app s t : String.prefix s (s +:+ t) = true.
Proof.
  induction s as [|c s IH]; [by destruct t|].
  rewrite str_app_cons. simpl. by destruct (ascii_dec c c).
Qed.

Lemma contains_prefix s t : String.prefix s t = true -> PyStr.contains s t = true.
Proof. intros H. destruct t; simpl in *; by rewrite H. Qed.

Lemma contains_app_r s t u :
  PyStr.contains s u = true -> PyStr.contains s (t +:+ u) = true.
Proof.
  intros H. induction t as [|c t IH]; [done|].
  rewrite str_app_cons. simpl. rewrite IH. apply orb_true_r.
Qed.

Lemma str_prefix_app_l s t u :
  String.prefix s t = true -> String.prefix s (t +:+ u) = true.
Proof.
  revert t. induction s as [|a s IH]; intros t H; [by destruct (t +:+ u)|].
  destruct t as [|c t]; [done|]. rewrite str_app_cons. simpl in *.
  destruct (ascii_dec a c); [by apply IH|done].
Qed.

Lemma contains_app_l s t u :
  PyStr.contains s t = true -> PyStr.contains s (t +:+ u) = true.
Proof.
  induction t as [|c t IH]; intros H.
  - apply contains_prefix, (str_prefix_app_l s ""). simpl in H.
    by rewrite orb_false_r in H.
  - rewrite str_app_cons. cbn [PyStr.contains] in *.
    apply orb_true_iff in H as [H|H]; apply orb_true_iff.
    + left. by apply (str_prefix_app_l s (String c t)).
    + right. by apply IH.
Qed.

Lemma contains_middle s t u : PyStr.contains s (t +:+ s +:+ u) = true.
Proof. apply contains_app_r, contains_prefix, str_prefix_app. Qed.

Lemma substring_app_skip s t n :
  String.substring (String.length s) n (s +:+ t) = String.substring 0 n t.
Proof. induction s as [|c s IH]; [done|]. rewrite str_app_cons. simpl. exact IH. Qed.

Lemma substring_prefix s t :
  String.substring 0 (String.length s) (s +:+ t) = s.
Proof. apply String.prefix_correct, str_prefix_app. Qed.

Lemma get_app_r s t n :
  String.get (String.length s + n) (s +:+ t) = String.get n t.
Proof. induction s as [|c s IH]; [done|]. rewrite str_app_cons. simpl. exact IH. Qed.

Lemma replace_char_remove c s :
  PyStr.replace (PyStr.char c) "" s = PyStr.remove_char c s.
Proof.
  unfold PyStr.replace, PyStr.char.
  induction s as [|a s IH]; [done|].
  cbn [PyStr.replace_from PyStr.remove_char String.prefix String.length].
  destruct (ascii_dec c a) as [->|Hne].
  - rewrite Ascii.eqb_refl. destruct s; simpl; exact IH.
  - destruct (Ascii.eqb_spec a c) as [->|_]; [done|]. by rewrite IH.
Qed.

Lemma escaped_strip_quotes s : escaped s = strip_quotes s.
Proof. unfold escaped, strip_quotes. by rewrite !replace_char_remove. Qed.

Lemma remove_char_filter c s :
  String.list_ascii_of_string (PyStr.remove_char c s)
  = List.filter (fun a => negb (Ascii.eqb a c)) (String.list_ascii_of_string s).
Proof.
  induction s as [|a s IH]; [done|]. simpl.
  destruct (Ascii.eqb a c); simpl; by rewrite IH.
Qed.

Lemma occurs_remove_char_same c s : PyStr.occurs c (PyStr.remove_char c s) = false.
Proof.
  induction s as [|a s IH]; [done|]. simpl.
  destruct (Ascii.eqb a c) eqn:E; [done|]. simpl. by rewrite E.
Qed.

Lemma occurs_remove_char_other c d s :
  PyStr.occurs c s = false -> PyStr.occurs c (PyStr.remove_char d s) = false.
Proof.
  induction s as [|a s IH]; [done|]. simpl. intros H.
  apply orb_false_iff in H as [Ha Hs].
  destruct (Ascii.eqb a d); [by apply IH|]. simpl. rewrite Ha. by apply IH.
Qed.

End StringFacts.

(** ** The prompt composer *)

Section Composer.

Implicit Types (query block : string) (passages : list string).

Lemma filter_filter {A : Type} (f g : A -> bool) (l : list A) :
  List.filter f (List.filter g l) = List.filter (fun a => g a && f a) l.
Proof.
  induction l as [|a l IH]; [done|]. simpl.
  destruct (g a); simpl; [destruct (f a)|]; by rewrite IH.
Qed.

Lemma escaped_filter block :
  String.list_ascii_of_string (escaped block)
  = List.filter
      (fun a => negb (Ascii.eqb a PyStr.single_quote)
                && negb (Ascii.eqb a PyStr.double_quote))
      (String.list_ascii_of_string block).
Proof.
  rewrite escaped_strip_quotes. unfold strip_quotes.
  by rewrite !remove_char_filter, filter_filter.
Qed.

Lemma escaped_no_single_quote block :
  PyStr.occurs PyStr.single_quote (escaped block) = false.
Proof.
  rewrite escaped_strip_quotes. unfold strip_quotes.
  apply occurs_remove_char_other, occurs_remove_char_same.
Qed.

Lemma escaped_no_double_quote block :
  PyStr.occurs PyStr.double_quote (escaped block) = false.
Proof.
  rewrite escaped_strip_quotes. unfold strip_quotes.
  apply occurs_remove_char_same.
Qed.

Lemma make_prompt_shape query block :
  make_prompt query block
  = prompt_head +:+ query +:+ prompt_middle +:+ escaped block +:+ prompt_tail.
Proof. reflexivity. Qed.

Lemma make_prompt_contains_query query block :
  PyStr.contains query (make_prompt query block) = true.
Proof. rewrite make_prompt_shape. apply contains_middle. Qed.

Lemma get_lt (s : string) (i : nat) (c : ascii) :
  String.get i s = Some c -> (i < String.length s)%nat.
Proof.
  revert i. induction s as [|a s IH]; intros i H; [done|].
  destruct i as [|i]; simpl in *; [lia|]. apply IH in H. lia.
Qed.

Example make_prompt_keeps_query_quote :
  PyStr.contains "What's on?" (make_prompt "What's on?" "It's a deal") = true
  /\ PyStr.contains "Its a deal" (make_prompt "What's on?" "It's a deal") = true.
Proof. split; reflexivity. Qed.

(** Joining with line breaks: nothing for no passage, the passage itself
    for one, and a line break between any two neighbours. *)
Lemma join_equations passages :
  convert_passages_to_string passages = String.concat PyStr.nl passages
  /\ convert_passages_to_string [] = ""
  /\ (forall a, convert_passages_to_string [a] = a)
  /\ (forall a b l,
        convert_passages_to_string (a :: b :: l)
        = a +:+ PyStr.nl +:+ convert_passages_to_string (b :: l)).
Proof. repeat split. Qed.

(** C5: for every query and every sequence of passages, the composer joins
    the passages with line breaks into one block, deletes from the block the
    single-quote and double-quote characters and nothing else (every other
    character stays, in order), puts the query and the escaped block into the
    fixed template, which carries the persona sentence and the Burj Khalifa /
    Burj Al Arab instruction, and returns the filled template whole: it agrees
    with the composer as the specification words it, and its length is the
    sum of the lengths of its parts. *)
Theorem C5_prompt_composer query passages :
  let block := convert_passages_to_string passages in
  let prompt := make_prompt query block in
  (block = String.concat PyStr.nl passages
   /\ convert_passages_to_string [] = ""
   /\ (forall a, convert_passages_to_string [a] = a)
   /\ (forall a b l,
         convert_passages_to_string (a :: b :: l)
         = a +:+ PyStr.nl +:+ convert_passages_to_string (b :: l)))
  /\ String.list_ascii_of_string (escaped block)
     = List.filter
         (fun a => negb (Ascii.eqb a PyStr.single_quote)
                   && negb (Ascii.eqb a PyStr.double_quote))
         (String.list_ascii_of_string block)
  /\ prompt = compose_spec query passages
  /\ prompt
     = prompt_head +:+ query +:+ prompt_middle +:+ escaped block
       +:+ prompt_tail
  /\ PyStr.contains
       "You are a chatbot specializing in helping users find deals for tourist attractions in Dubai."
       prompt = true
  /\ PyStr.contains
       "for Burj Khalifa only return Burj Khalifa deals and for burj al arab only return burj al arab deals"
       prompt = true
  /\ String.length prompt
     = (String.length prompt_head + String.length query
        + String.length prompt_middle + String.length (escaped block)
        + String.length prompt_tail)%nat.
Proof.
  intros block prompt. subst prompt.
  split; [apply join_equations|]. split; [apply escaped_filter|].
  split.
  { unfold compose_spec. rewrite make_prompt_shape.
    by rewrite escaped_strip_quotes. }
  split; [reflexivity|]. rewrite make_prompt_shape.
  split; [by apply contains_app_l|].
  split.
  { do 4 apply contains_app_r. reflexivity. }
  rewrite !str_length_app. lia.
Qed.

(** C10: quote characters of the query reach the prompt as they are.  Only
    the passage argument goes through the two [replace] calls: the part of
    the prompt where the query is put is the query itself, character by
    character, whatever the characters are. *)
Theorem C10_query_quotes_preserved query block :
  let prompt := make_prompt query block in
  String.substring (String.length prompt_head) (String.length query) prompt
  = query
  /\ (forall (i : nat) (c : ascii),
        String.get i query = Some c ->
        String.get (String.length prompt_head + i) prompt = Some c)
  /\ (forall c : ascii,
        PyStr.occurs c query = true ->
        PyStr.occurs c
          (String.substring (String.length prompt_head) (String.length query)
             prompt) = true).
Proof.
  intros prompt. subst prompt. rewrite make_prompt_shape.
  assert (Hsub :
    String.substring (String.length prompt_head) (String.length query)
      (prompt_head +:+ query +:+ prompt_middle +:+ escaped block
       +:+ prompt_tail) = query).
  { rewrite substring_app_skip. apply substring_prefix. }
  split; [exact Hsub|]. split.
  - intros i c H. rewrite get_app_r.
    rewrite <- String.append_correct1 by (eapply get_lt; exact H). exact H.
  - intros c H. by rewrite Hsub.
Qed.

End Composer.

(** ** Runs of the effectful functions *)

Section Runs.

Variable svc : Services.

Lemma bind_return {A B : Type} (m : M A) (k : A -> M B) s a s' :
  m s = (Return a, s') -> bind m k s = k a s'.
Proof. unfold bind. by intros ->. Qed.

Lemma append_run (l : list message) (m : message) s :
  session_state s !! st.key = Some l ->
  st.append st.key m s
  = (Return tt,
     {| session_state := <[st.key := l ++ [m]]> (session_state s);
        database := database s;
        trace := trace s |}).
Proof.
  intros H. unfold st.append, st.getitem, st.setitem, bind, get_session,
    put_session, ret. by rewrite H.
Qed.

Lemma getitem_run (l : list message) s :
  session_state s !! st.key = Some l -> st.getitem st.key s = (Return l, s).
Proof.
  intros H. unfold st.getitem, bind, get_session, ret. by rewrite H.
Qed.

Lemma loadVectorDataBase_run s :
  loadVectorDataBase s
  = (Return the_collection,
     {| session_state := session_state s;
        database := opened (database s);
        trace := trace s |}).
Proof.
  unfold loadVectorDataBase, chromadb.get_or_create_collection, opened, bind,
    get_database, put_database, ret. cbn.
  destruct (database s !! _); [by destruct s|done].
Qed.

Lemma query_run db texts n s :
  chromadb.query svc db texts n s
  = (answer svc db (database s) texts n, with_trace s [EvQuery db texts n]).
Proof.
  unfold chromadb.query, answer, bind, emit, get_database, from_outcome,
    raise, with_trace. cbn.
  by destruct (database s !! _).
Qed.

Lemma store_answer_eq db texts n s :
  store_answer svc db texts n s = answer svc db (database s) texts n.
Proof. unfold store_answer. by rewrite query_run. Qed.

(** The retriever always returns: what it returns is read off the answer of
    the backend, and a raised exception leaves one warning. *)
Lemma get_relevant_passages_run q db n s :
  let n' := default 10%Z n in
  let o := answer svc db (database s) [q] n' in
  get_relevant_passages svc q db n s
  = (Return (passages_of o), with_trace s (EvQuery db [q] n' :: warning_of o)).
Proof.
  cbn zeta. unfold get_relevant_passages, try_except, bind.
  rewrite query_run.
  destruct (answer _ _ _ _ _) as [[[[[|d ds]|]]|]|e]; cbn;
    unfold with_trace; cbn; rewrite <- ?app_assoc; reflexivity.
Qed.

Lemma retrieved_eq q s :
  retrieved svc q s
  = Return (passages_of (answer svc the_collection (opened (database s)) [q] 5%Z)).
Proof.
  unfold retrieved, loaded.
  by rewrite loadVectorDataBase_run, get_relevant_passages_run.
Qed.

Lemma display_run (m : message) s :
  display m s = (Return tt, with_trace s [EvMarkdown (line m)]).
Proof.
  unfold display, line, role_label, st.markdown, emit, with_trace.
  by case_bool_decide.
Qed.

Lemma for_each_display_run (l : list message) s :
  for_each l display s
  = (Return tt, with_trace s (map (fun m => EvMarkdown (line m)) l)).
Proof.
  revert s. induction l as [|m l IH]; intros s.
  - cbn. unfold ret, with_trace. rewrite app_nil_r. by destruct s.
  - cbn [for_each map]. unfold bind. rewrite display_run, IH.
    unfold with_trace. cbn. by rewrite <- app_assoc.
Qed.

Lemma main_eq q s : main svc q s = main_result svc q s.
Proof.
  unfold main, main_result, conversation_log.
  unfold bind at 1. cbn [setUpGoogleAPI genai.configure emit].
  erewrite bind_return by apply loadVectorDataBase_run.
  unfold bind at 1, st.contains at 1, bind at 1, get_session, ret at 1.
  cbn [session_state database trace].
  set (cfg := EvConfigure _). set (d := opened _).
  set (l0 := default [] (session_state s !! st.key)).
  set (s1 := {| session_state := <[st.key := l0]> (session_state s);
                database := d; trace := trace s ++ [cfg] |}).
  assert (Hs1 : session_state s1 !! st.key = Some l0) by apply lookup_insert_eq.
  assert (Hinit : forall (k : M unit),
    bind (if negb (bool_decide (is_Some (session_state s !! st.key)))
          then st.setitem st.key [] else ret tt) (fun _ => k)
      {| session_state := session_state s; database := d;
         trace := trace s ++ [cfg] |} = k s1).
  { intros k. unfold bind, s1, l0. case_bool_decide as Hp; cbn.
    - destruct Hp as [l Hl]. rewrite Hl. cbn. by rewrite insert_id.
    - apply eq_None_not_Some in Hp. by rewrite Hp. }
  rewrite Hinit. clear Hinit.
  destruct (PyStr.truthy q).
  - unfold bind at 1, bind at 1.
    rewrite (append_run l0 _ s1 Hs1).
    erewrite bind_return by apply get_relevant_passages_run.
    cbn [default session_state database trace with_trace s1].
    set (o := answer _ _ _ _ _).
    rewrite !insert_insert_eq.
    destruct (passages_of o) as [[|p ps]|].
    + erewrite append_run by apply lookup_insert_eq.
      erewrite bind_return by (apply getitem_run, lookup_insert_eq).
      rewrite for_each_display_run. unfold with_trace. cbn.
      rewrite ?insert_insert_eq, <- ?app_assoc. cbn.
      by rewrite <- ?app_assoc.
    + unfold genai.generate, bind at 1, bind at 1, emit, from_outcome.
      cbn [session_state database trace].
      destruct (generate_content _ _ _) as [text|e].
      * erewrite append_run by apply lookup_insert_eq.
        erewrite bind_return by (apply getitem_run, lookup_insert_eq).
        rewrite for_each_display_run. unfold with_trace. cbn.
        rewrite ?insert_insert_eq, <- ?app_assoc. cbn.
        by rewrite <- ?app_assoc.
      * cbn. rewrite <- ?app_assoc. cbn. by rewrite <- ?app_assoc.
    + erewrite append_run by apply lookup_insert_eq.
      erewrite bind_return by (apply getitem_run, lookup_insert_eq).
      rewrite for_each_display_run. unfold with_trace. cbn.
      rewrite ?insert_insert_eq, <- ?app_assoc. cbn.
      by rewrite <- ?app_assoc.
  - unfold bind at 1, ret at 1.
    erewrite bind_return by (apply getitem_run, Hs1).
    rewrite for_each_display_run. unfold with_trace, s1. cbn.
    by rewrite <- ?app_assoc.
Qed.

End Runs.

(** ** What the traces show *)

Section Traces.

Implicit Types (evs : list event) (log : list message).

Lemma generation_calls_app evs1 evs2 :
  generation_calls (evs1 ++ evs2)
  = generation_calls evs1 ++ generation_calls evs2.
Proof. apply List.filter_app. Qed.

Lemma generation_calls_markdown log :
  generation_calls (map (fun m => EvMarkdown (line m)) log) = [].
Proof. by induction log. Qed.

Lemma generation_calls_warning {A : Type} (o : outcome A) :
  generation_calls (warning_of o) = [].
Proof. by destruct o. Qed.

Lemma query_requests_markdown log :
  query_requests (map (fun m => EvMarkdown (line m)) log) = [].
Proof. by induction log. Qed.

Lemma query_requests_warning {A : Type} (o : outcome A) :
  query_requests (warning_of o) = [].
Proof. by destruct o. Qed.

Lemma rendered_markdown log :
  rendered (map (fun m => EvMarkdown (line m)) log) = map line log.
Proof. induction log as [|m log IH]; [done|]. cbn. by f_equal. Qed.

Lemma rendered_warning {A : Type} (o : outcome A) :
  rendered (warning_of o) = [].
Proof. by destruct o. Qed.

Lemma conversation_log_insert log (ss : gmap string (list message)) d tr :
  conversation_log
    {| session_state := <[st.key := log]> ss; database := d; trace := tr |}
  = log.
Proof. unfold conversation_log. cbn. by rewrite lookup_insert_eq. Qed.

Lemma truthy_nonempty (q : string) : q <> "" -> PyStr.truthy q = true.
Proof. by destruct q. Qed.

End Traces.

(** ** The passage retriever *)

Section Retriever.

Variable svc : Services.

Lemma opened_idempotent (d : gmap (string * string) (list string)) :
  opened (opened d) = opened d.
Proof.
  unfold opened. destruct (d !! _) as [docs|] eqn:E.
  - by rewrite E.
  - by rewrite lookup_insert_eq.
Qed.

Lemma opened_keeps (d : gmap (string * string) (list string)) docs :
  d !! ("../database/", "sme_db") = Some docs ->
  opened d !! ("../database/", "sme_db") = Some docs.
Proof. intros H. unfold opened. by rewrite H. Qed.

(** C3, as amended: the retriever never raises.  When the backend call
    raises, it returns null and one warning carrying the message is put on
    the page; when the answer is falsy, or its documents are null or an
    empty list, it returns null and no warning; when the documents are a
    non-empty list it returns the first entry of that list, which is the
    empty sequence, not null, when the store found no document for the
    query.  In every case where the store returned no document the value
    returned is null or empty. *)
Theorem C3_retriever_null_or_empty (q : string) (db : Collection)
    (n : option Z) (s : state) :
  let o := store_answer svc db [q] (default 10%Z n) s in
  exists (p : option (list string)) (s' : state),
    get_relevant_passages svc q db n s = (Return p, s')
    /\ (forall e, o = Raise e ->
          p = None
          /\ warnings (trace s')
             = warnings (trace s)
               ++ ["Error querying database: " +:+ str_exn e])
    /\ (forall r, o = Return r -> warnings (trace s') = warnings (trace s))
    /\ (forall r, o = Return r -> has_documents r = false -> p = None)
    /\ (forall r d ds,
          o = Return (Some r) -> documents r = Some (d :: ds) -> p = Some d)
    /\ (forall r, o = Return r -> returned_documents r = [] ->
          p = None \/ p = Some []).
Proof.
  intros o. subst o. rewrite store_answer_eq.
  eexists _, _. split; [apply get_relevant_passages_run|].
  cbn [trace with_trace]. unfold warnings.
  rewrite omap_app. cbn [omap list_omap].
  destruct (answer _ _ _ _ _) as [r|e]; cbn.
  - split; [done|]. split; [intros _ _; by rewrite app_nil_r|].
    split.
    { intros r' [= <-] H. by destruct r as [[[[|d ds]|]]|]. }
    split.
    { intros r' d ds [= ->] H. by rewrite H. }
    intros r' [= <-] H. destruct r as [[[[|d ds]|]]|]; cbn in *; auto.
    apply app_eq_nil in H as [-> _]. by right.
  - split; [|done]. by intros e' [= <-].
Qed.

(** C6: the retriever asks the store for [n_results] neighbours of the one
    query text; a call that leaves the argument out asks for 10, and [main]
    asks for 5, once, when the input holds a query. *)
Theorem C6_requested_neighbours (q : string) (db : Collection) (s : state) :
  query_requests (trace (snd (get_relevant_passages svc q db None s)))
  = query_requests (trace s) ++ [([q], 10%Z)]
  /\ (forall n : Z,
        query_requests
          (trace (snd (get_relevant_passages svc q db (Some n) s)))
        = query_requests (trace s) ++ [([q], n)])
  /\ query_requests (trace (snd (main svc q s)))
     = query_requests (trace s)
       ++ (if PyStr.truthy q then [([q], 5%Z)] else []).
Proof.
  split; [|split].
  - rewrite get_relevant_passages_run. cbn. unfold query_requests.
    rewrite omap_app. cbn. by rewrite (query_requests_warning _).
  - intros n. rewrite get_relevant_passages_run. cbn. unfold query_requests.
    rewrite omap_app. cbn. by rewrite (query_requests_warning _).
  - rewrite main_eq. unfold main_result.
    destruct (PyStr.truthy q).
    + set (o := answer _ _ _ _ _).
      assert (Hw := query_requests_warning o).
      destruct (passages_of o) as [[|p ps]|];
        [| destruct (generate_content _ _ _) |];
        cbn; unfold query_requests in *;
        rewrite ?omap_app; cbn; rewrite ?omap_app, ?Hw;
        rewrite ?(query_requests_markdown _); cbn;
        try (pose proof (query_requests_markdown
               (conversation_log s ++
                  [user_message q; assistant_message fallback_text])) as Hm;
             unfold query_requests in Hm; rewrite Hm);
        by rewrite ?app_nil_r.
    + cbn. unfold query_requests. rewrite omap_app. cbn.
      pose proof (query_requests_markdown (conversation_log s)) as Hm.
      unfold query_requests in Hm. by rewrite Hm.
Qed.

(** C7: the script opens the store under one fixed directory and one fixed
    name.  Opening it a second time returns the same handle and leaves the
    store as the first opening left it; documents already stored are kept;
    the retriever returns the same for every query through either handle. *)
Theorem C7_open_twice (s : state) :
  exists (db1 : Collection) (s1 : state) (db2 : Collection) (s2 : state),
    loadVectorDataBase s = (Return db1, s1)
    /\ loadVectorDataBase s1 = (Return db2, s2)
    /\ db1 = db2
    /\ database s2 = database s1
    /\ (forall docs,
          database s !! (path (client db1), name db1) = Some docs ->
          database s1 !! (path (client db1), name db1) = Some docs)
    /\ (forall (q : string) (n : option Z),
          fst (get_relevant_passages svc q db1 n s1)
          = fst (get_relevant_passages svc q db2 n s2)).
Proof.
  eexists _, _, _, _.
  split; [apply loadVectorDataBase_run|].
  split; [apply loadVectorDataBase_run|].
  split; [done|]. cbn [database].
  split; [apply opened_idempotent|].
  split; [apply opened_keeps|].
  intros q n. rewrite !get_relevant_passages_run. cbn.
  by rewrite opened_idempotent.
Qed.

End Retriever.

(** The retriever over an empty store whose backend answers with one empty
    list of documents for the one query text. *)
Lemma C3_counterexample_empty_store :
  let s := loaded Examples.empty_store in
  store_answer Examples.svc_live the_collection ["desert safari"] 5%Z s
  = Return (Some {| documents := Some [[]] |})
  /\ returned_documents (Some {| documents := Some [[]] |}) = []
  /\ fst (get_relevant_passages Examples.svc_live "desert safari"
            the_collection (Some 5%Z) s)
     = Return (Some [])
  /\ Return (Some []) <> (Return None : outcome (option (list string))).
Proof. cbv zeta. repeat split; try (vm_compute; reflexivity). discriminate. Qed.

(** ** A turn of [main] *)

Section Turn.

Variable svc : Services.

Implicit Types (q : string) (s : state).

(** The turn that finds no passage: the fallback answer, no call to the
    model. *)
Lemma main_without_passages q s :
  q <> "" ->
  retrieved svc q s = Return None \/ retrieved svc q s = Return (Some []) ->
  exists evs,
    main svc q s
    = (Return tt,
       {| session_state :=
            <[st.key := conversation_log s
                        ++ [user_message q; assistant_message fallback_text]]>
              (session_state s);
          database := opened (database s);
          trace := trace s ++ evs |})
    /\ generation_calls evs = []
    /\ rendered evs
       = map line (conversation_log s
                   ++ [user_message q; assistant_message fallback_text]).
Proof.
  intros Hq H. rewrite retrieved_eq in H.
  rewrite main_eq. unfold main_result. rewrite (truthy_nonempty q Hq).
  set (o := answer _ _ _ _ _) in *.
  assert (Hp : passages_of o = None \/ passages_of o = Some []).
  { destruct H as [[= ->]|[= ->]]; auto. }
  eexists. split.
  { destruct Hp as [-> | ->]; reflexivity. }
  split.
  - cbn. rewrite generation_calls_app.
    by rewrite generation_calls_warning, generation_calls_markdown.
  - unfold rendered. cbn. rewrite omap_app.
    pose proof (rendered_warning o) as Hw. unfold rendered in Hw. rewrite Hw.
    apply rendered_markdown.
Qed.

(** The turn that finds passages: one call to the model, with the composed
    prompt. *)
Lemma main_with_passages q s p ps :
  q <> "" ->
  retrieved svc q s = Return (Some (p :: ps)) ->
  let prompt := make_prompt q (convert_passages_to_string (p :: ps)) in
  exists evs,
    trace (snd (main svc q s)) = trace s ++ evs
    /\ generation_calls evs = [EvGenerate "gemini-pro" prompt]
    /\ match generate_content svc "gemini-pro" prompt with
       | Return text =>
           fst (main svc q s) = Return tt
           /\ conversation_log (snd (main svc q s))
              = conversation_log s ++ [user_message q; assistant_message text]
           /\ rendered evs = map line (conversation_log (snd (main svc q s)))
       | Raise e =>
           fst (main svc q s) = Raise e
           /\ conversation_log (snd (main svc q s))
              = conversation_log s ++ [user_message q]
       end.
Proof.
  intros Hq H prompt. rewrite retrieved_eq in H. injection H as H.
  rewrite main_eq. unfold main_result. rewrite (truthy_nonempty q Hq).
  set (o := answer _ _ _ _ _) in *. rewrite H. fold prompt.
  pose proof (generation_calls_warning o) as Hg.
  pose proof (rendered_warning o) as Hw. unfold rendered in Hw.
  destruct (generate_content svc "gemini-pro" prompt) as [text|e];
    cbn [fst snd trace]; eexists; (split; [reflexivity|]).
  - split.
    { cbn. rewrite !generation_calls_app, Hg, generation_calls_markdown.
      reflexivity. }
    split; [done|]. rewrite conversation_log_insert. split; [done|].
    unfold rendered. cbn. rewrite !omap_app, Hw. cbn.
    apply rendered_markdown.
  - split.
    { cbn. rewrite !generation_calls_app, Hg. reflexivity. }
    split; [done|]. by rewrite conversation_log_insert.
Qed.

(** The run with nothing in the input: the log is left as it is. *)
Lemma main_without_query s :
  exists evs,
    main svc "" s
    = (Return tt,
       {| session_state := <[st.key := conversation_log s]> (session_state s);
          database := opened (database s);
          trace := trace s ++ evs |})
    /\ generation_calls evs = []
    /\ rendered evs = map line (conversation_log s).
Proof.
  rewrite main_eq. unfold main_result. cbn [PyStr.truthy].
  eexists. split; [reflexivity|]. split.
  - cbn. apply generation_calls_markdown.
  - apply rendered_markdown.
Qed.

(** The retriever returns to [main] null, an empty sequence, or passages. *)
Lemma retrieved_cases q s :
  retrieved svc q s = Return None
  \/ retrieved svc q s = Return (Some [])
  \/ exists p ps, retrieved svc q s = Return (Some (p :: ps)).
Proof.
  rewrite retrieved_eq. destruct (passages_of _) as [[|p ps]|]; eauto.
Qed.

Lemma retrieved_on_error q s e :
  store_answer svc the_collection [q] 5%Z (loaded s) = Raise e ->
  retrieved svc q s = Return None.
Proof.
  unfold loaded. rewrite store_answer_eq, retrieved_eq, loadVectorDataBase_run.
  cbn [snd database]. by intros ->.
Qed.

(** C1: for every query for which the retriever returns no passage (null or
    an empty sequence) or the call to the backend raises, the run completes,
    the log grows by the user message and an assistant message whose content
    is the fixed fallback sentence, and no call to the model is made. *)
Theorem C1_fallback_without_generation q s :
  q <> "" ->
  (exists e, store_answer svc the_collection [q] 5%Z (loaded s) = Raise e)
  \/ retrieved svc q s = Return None
  \/ retrieved svc q s = Return (Some []) ->
  exists (s' : state) (evs : list event),
    main svc q s = (Return tt, s')
    /\ conversation_log s'
       = conversation_log s
         ++ [{| role := "user"; content := q |};
             {| role := "assistant";
                content :=
                  "Sorry, I couldn't find any relevant deals. Please try another query!" |}]
    /\ trace s' = trace s ++ evs
    /\ generation_calls evs = [].
Proof.
  intros Hq H.
  assert (H' : retrieved svc q s = Return None
               \/ retrieved svc q s = Return (Some [])).
  { destruct H as [[e He]|[H|H]]; eauto using retrieved_on_error. }
  destruct (main_without_passages q s Hq H') as (evs & Hm & Hg & _).
  eexists _, evs. split; [exact Hm|].
  split; [apply conversation_log_insert|]. by split.
Qed.

(** C9: in a turn the model is called exactly when the retriever returned a
    non-empty sequence, and then once, with the composed prompt.  An empty
    sequence takes the fallback branch as null does. *)
Theorem C9_generation_iff_passages q s :
  q <> "" ->
  exists evs : list event,
    trace (snd (main svc q s)) = trace s ++ evs
    /\ (generation_calls evs <> []
        <-> exists p ps, retrieved svc q s = Return (Some (p :: ps)))
    /\ (forall p ps,
          retrieved svc q s = Return (Some (p :: ps)) ->
          generation_calls evs
          = [EvGenerate "gemini-pro"
               (make_prompt q (convert_passages_to_string (p :: ps)))])
    /\ (retrieved svc q s = Return (Some []) ->
        generation_calls evs = []
        /\ fst (main svc q s) = Return tt
        /\ conversation_log (snd (main svc q s))
           = conversation_log s
             ++ [user_message q; assistant_message fallback_text]).
Proof.
  intros Hq.
  destruct (retrieved_cases q s) as [H|[H|(p & ps & H)]].
  - destruct (main_without_passages q s Hq (or_introl H)) as (evs & Hm & Hg & _).
    exists evs. rewrite Hm, Hg, H. cbn [snd fst trace].
    split; [done|]. split.
    { split; [done|]. by intros (? & ? & [=]). }
    split; [by intros ? ? [=]|]. by intros [=].
  - destruct (main_without_passages q s Hq (or_intror H)) as (evs & Hm & Hg & _).
    exists evs. rewrite Hm, Hg, H. cbn [snd fst trace].
    split; [done|]. split.
    { split; [done|]. by intros (? & ? & [=]). }
    split; [by intros ? ? [=]|]. intros _.
    by rewrite conversation_log_insert.
  - destruct (main_with_passages q s p ps Hq H) as (evs & Ht & Hg & _).
    exists evs. rewrite Hg, H.
    split; [done|]. split.
    { split; [eauto|]. by intros _. }
    split; [by intros ? ? [= <- <-]|]. by intros [=].
Qed.

(** C2: for every query for which the retriever returns at least one
    passage, the prompt sent to the model contains the query as it was
    typed, and its context section -- the joined passages after the two
    [replace] calls, between the fixed middle and the fixed tail of the
    template -- holds neither a single quote nor a double quote. *)
Theorem C2_prompt_has_query_and_clean_context q s p ps :
  q <> "" ->
  retrieved svc q s = Return (Some (p :: ps)) ->
  exists (evs : list event) (prompt context_section : string),
    trace (snd (main svc q s)) = trace s ++ evs
    /\ generation_calls evs = [EvGenerate "gemini-pro" prompt]
    /\ PyStr.contains q prompt = true
    /\ prompt
       = prompt_head +:+ q +:+ prompt_middle +:+ context_section
         +:+ prompt_tail
    /\ context_section = escaped (PyStr.join PyStr.nl (p :: ps))
    /\ PyStr.occurs PyStr.single_quote context_section = false
    /\ PyStr.occurs PyStr.double_quote context_section = false.
Proof.
  intros Hq H.
  destruct (main_with_passages q s p ps Hq H) as (evs & Ht & Hg & _).
  eexists evs, _, _. split; [exact Ht|]. split; [exact Hg|].
  split; [apply make_prompt_contains_query|].
  split; [apply make_prompt_shape|]. split; [reflexivity|].
  split; [apply escaped_no_single_quote | apply escaped_no_double_quote].
Qed.

(** C8: the display loop puts on the page one text per message of the log,
    in the order of the log: the label [You:] for a user message, the label
    [DuneGuide:] for an assistant message, each between markdown emphasis
    marks, then a space and the content.  A completed run of [main] displays
    the log as the run leaves it. *)
Theorem C8_rendering_of_the_log (log : list message) s :
  (exists (s' : state) (lines : list string),
     for_each log display s = (Return tt, s')
     /\ rendered (trace s') = rendered (trace s) ++ lines
     /\ length lines = length log
     /\ (forall (i : nat) (m : message),
           log !! i = Some m -> role m = "user" ->
           lines !! i = Some ("**You:** " +:+ content m))
     /\ (forall (i : nat) (m : message),
           log !! i = Some m -> role m = "assistant" ->
           lines !! i = Some ("**DuneGuide:** " +:+ content m)))
  /\ (forall (q : string) (s' : state),
        main svc q s = (Return tt, s') ->
        exists evs,
          trace s' = trace s ++ evs
          /\ rendered evs = map line (conversation_log s')).
Proof.
  split.
  - eexists _, (map line log). split; [apply for_each_display_run|].
    cbn [trace with_trace]. unfold rendered at 1. rewrite omap_app.
    pose proof (rendered_markdown log) as Hr. unfold rendered in Hr.
    rewrite Hr. split; [done|]. split; [apply length_map|].
    split; intros i m Hi Hr'; rewrite list_lookup_fmap, Hi; cbn;
      unfold line, role_label; by rewrite Hr'.
  - intros q s' Hm. destruct (decide (q = "")) as [->|Hq].
    + destruct (main_without_query s) as (evs & Hm' & _ & Hr).
      rewrite Hm' in Hm. injection Hm as <-. exists evs.
      split; [done|]. by rewrite conversation_log_insert.
    + destruct (retrieved_cases q s) as [H|[H|(p & ps & H)]].
      * destruct (main_without_passages q s Hq (or_introl H))
          as (evs & Hm' & _ & Hr).
        rewrite Hm' in Hm. injection Hm as <-. exists evs.
        split; [done|]. by rewrite conversation_log_insert.
      * destruct (main_without_passages q s Hq (or_intror H))
          as (evs & Hm' & _ & Hr).
        rewrite Hm' in Hm. injection Hm as <-. exists evs.
        split; [done|]. by rewrite conversation_log_insert.
      * destruct (main_with_passages q s p ps Hq H) as (evs & Ht & _ & Hc).
        rewrite Hm in Ht, Hc. cbn [fst snd] in *. exists evs.
        split; [done|].
        destruct (generate_content _ _ _); [by destruct Hc as (_ & _ & ?)|].
        by destruct Hc as [[=] _].
Qed.

End Turn.

(** ** The ordering of the conversation log over a session *)

Section Ordering.

Implicit Types (log : list message) (runs : list (Services * string)).

(** A log of whole turns read from the front. *)
Lemma paired_front log q r :
  paired log -> paired (user_message q :: assistant_message r :: log).
Proof.
  induction 1 as [|log q' r' _ IH].
  - apply (paired_turn [] q r), paired_nil.
  - apply (paired_turn (_ :: _ :: log) q' r'), IH.
Qed.

Lemma paired_inv log :
  paired log ->
  log = [] \/ exists q r log',
    log = user_message q :: assistant_message r :: log' /\ paired log'.
Proof.
  induction 1 as [|log q r H IH]; [by left|]. right.
  destruct IH as [->|(q' & r' & log' & -> & H')].
  - exists q, r, []. split; [done|]. apply paired_nil.
  - exists q', r', (log' ++ [user_message q; assistant_message r]).
    split; [done|]. by apply paired_turn.
Qed.

Lemma paired_ordered log : paired log -> log_ordered log.
Proof.
  intros H. remember (length log) as n eqn:Hn.
  revert log H Hn. induction (lt_wf n) as [n _ IH]. intros log H ->.
  destruct (paired_inv log H) as [->|(q & r & log' & -> & H')].
  - intros i m Hi. by rewrite lookup_nil in Hi.
  - intros [|[|i]] m Hi Hu Hlen; cbn in *.
    + by exists (assistant_message r).
    + injection Hi as <-. discriminate Hu.
    + apply (IH (length log') ltac:(lia) log' H' eq_refl i m Hi Hu). lia.
Qed.

(** A completed run leaves the log as it was or adds one whole turn. *)
Lemma main_log_step svc (q : string) (s : state) :
  fst (main svc q s) = Return tt ->
  conversation_log (snd (main svc q s)) = conversation_log s
  \/ exists r,
       conversation_log (snd (main svc q s))
       = conversation_log s ++ [user_message q; assistant_message r].
Proof.
  intros Hc. destruct (decide (q = "")) as [->|Hq].
  - destruct (main_without_query svc s) as (evs & -> & _). left.
    apply conversation_log_insert.
  - destruct (retrieved_cases svc q s) as [H|[H|(p & ps & H)]].
    + destruct (main_without_passages svc q s Hq (or_introl H)) as (? & -> & _).
      right. eexists. apply conversation_log_insert.
    + destruct (main_without_passages svc q s Hq (or_intror H)) as (? & -> & _).
      right. eexists. apply conversation_log_insert.
    + destruct (main_with_passages svc q s p ps Hq H) as (? & _ & _ & Hg).
      destruct (generate_content _ _ _) as [text|e].
      * right. exists text. by destruct Hg as (_ & ? & _).
      * destruct Hg as [Hg _]. rewrite Hg in Hc. discriminate.
Qed.

Lemma session_paired runs (s : state) :
  paired (conversation_log s) -> all_complete runs s ->
  paired (conversation_log (session runs s)).
Proof.
  revert s. induction runs as [|[svc q] runs IH]; intros s Hp Hc; [done|].
  destruct Hc as [Hc Hrest]. cbn [session]. apply IH; [|done].
  destruct (main_log_step svc q s Hc) as [->|[r ->]]; [done|].
  by apply paired_turn.
Qed.

Lemma all_complete_take runs (s : state) (k : nat) :
  all_complete runs s -> all_complete (take k runs) s.
Proof.
  revert s k. induction runs as [|[svc q] runs IH]; intros s k Hc.
  - by rewrite take_nil.
  - destruct k as [|k]; [done|]. destruct Hc as [Hc Hrest].
    cbn. split; [done|]. by apply IH.
Qed.

(** C4, as amended: in a session that starts from an empty log and in which
    no run is ended by an exception, after every run the log is made of
    whole turns -- a user message, then its one assistant message -- and so
    every user message that is not the last one is followed by an assistant
    message. *)
Theorem C4_log_ordered_when_runs_complete runs (s : state) (k : nat) :
  conversation_log s = [] ->
  all_complete runs s ->
  paired (conversation_log (session (take k runs) s))
  /\ log_ordered (conversation_log (session (take k runs) s)).
Proof.
  intros H0 Hc.
  assert (paired (conversation_log (session (take k runs) s))) as Hp.
  { apply session_paired; [rewrite H0; apply paired_nil|].
    by apply all_complete_take. }
  split; [exact Hp | by apply paired_ordered].
Qed.

End Ordering.

(** A run the model call ends with an exception, then a completed run: the
    first user message is followed by the second user message. *)
Lemma C4_counterexample_after_failed_generation :
  let s1 :=
    snd (main Examples.svc_no_model "burj khalifa" Examples.stocked_store) in
  let s2 := snd (main Examples.svc_live "desert safari" s1) in
  conversation_log Examples.stocked_store = []
  /\ fst (main Examples.svc_no_model "burj khalifa" Examples.stocked_store)
     = Raise (Exception "503 unavailable")
  /\ fst (main Examples.svc_live "desert safari" s1) = Return tt
  /\ conversation_log s2
     = [user_message "burj khalifa"; user_message "desert safari";
        assistant_message "Here are today's deals."]
  /\ ~ log_ordered (conversation_log s2).
Proof.
  cbv zeta.
  assert (Hlog :
    conversation_log
      (snd (main Examples.svc_live "desert safari"
              (snd (main Examples.svc_no_model "burj khalifa"
                      Examples.stocked_store))))
    = [user_message "burj khalifa"; user_message "desert safari";
       assistant_message "Here are today's deals."])
    by (vm_compute; reflexivity).
  split; [vm_compute; reflexivity|].
  split; [vm_compute; reflexivity|].
  split; [vm_compute; reflexivity|].
  split; [exact Hlog|].
  rewrite Hlog. intros H.
  destruct (H 0%nat (user_message "burj khalifa") eq_refl eq_refl)
    as (m' & Hm & Hr); [cbn; lia|].
  injection Hm as <-. discriminate Hr.
Qed.

(** ** Instances *)

Lemma C1_witness_empty_store :
  exists (s' : state) (evs : list event),
    main Examples.svc_live "desert safari" Examples.empty_store
    = (Return tt, s')
    /\ conversation_log s'
       = conversation_log Examples.empty_store
         ++ [{| role := "user"; content := "desert safari" |};
             {| role := "assistant";
                content :=
                  "Sorry, I couldn't find any relevant deals. Please try another query!" |}]
    /\ trace s' = trace Examples.empty_store ++ evs
    /\ generation_calls evs = [].
Proof.
  apply (C1_fallback_without_generation
           Examples.svc_live "desert safari" Examples.empty_store).
  - discriminate.
  - right. right. vm_compute. reflexivity.
Defined.

Lemma C2_witness_stocked_store :
  exists (evs : list event) (prompt context_section : string),
    trace (snd (main Examples.svc_live "burj khalifa" Examples.stocked_store))
    = trace Examples.stocked_store ++ evs
    /\ generation_calls evs = [EvGenerate "gemini-pro" prompt]
    /\ PyStr.contains "burj khalifa" prompt = true
    /\ prompt
       = prompt_head +:+ "burj khalifa" +:+ prompt_middle +:+ context_section
         +:+ prompt_tail
    /\ context_section = escaped (PyStr.join PyStr.nl Examples.deals)
    /\ PyStr.occurs PyStr.single_quote context_section = false
    /\ PyStr.occurs PyStr.double_quote context_section = false.
Proof.
  apply (C2_prompt_has_query_and_clean_context
           Examples.svc_live "burj khalifa" Examples.stocked_store).
  - discriminate.
  - vm_compute. reflexivity.
Defined.

Lemma C9_witness_unreachable_store :
  exists evs : list event,
    trace (snd (main Examples.svc_no_store "desert safari"
                  Examples.stocked_store))
    = trace Examples.stocked_store ++ evs
    /\ (generation_calls evs <> []
        <-> exists p ps,
              retrieved Examples.svc_no_store "desert safari"
                Examples.stocked_store
              = Return (Some (p :: ps)))
    /\ (forall p ps,
          retrieved Examples.svc_no_store "desert safari"
            Examples.stocked_store
          = Return (Some (p :: ps)) ->
          generation_calls evs
          = [EvGenerate "gemini-pro"
               (make_prompt "desert safari"
                  (convert_passages_to_string (p :: ps)))])
    /\ (retrieved Examples.svc_no_store "desert safari" Examples.stocked_store
        = Return (Some []) ->
        generation_calls evs = []
        /\ fst (main Examples.svc_no_store "desert safari"
                  Examples.stocked_store) = Return tt
        /\ conversation_log
             (snd (main Examples.svc_no_store "desert safari"
                     Examples.stocked_store))
           = conversation_log Examples.stocked_store
             ++ [user_message "desert safari";
                 assistant_message fallback_text]).
Proof.
  apply (C9_generation_iff_passages
           Examples.svc_no_store "desert safari" Examples.stocked_store).
  discriminate.
Defined.

Lemma C4_witness_three_runs :
  paired
    (conversation_log
       (session
          (take 3
             [(Examples.svc_live, "burj khalifa");
              (Examples.svc_no_store, "desert safari");
              (Examples.svc_live, "")])
          Examples.stocked_store))
  /\ log_ordered
       (conversation_log
          (session
             (take 3
                [(Examples.svc_live, "burj khalifa");
                 (Examples.svc_no_store, "desert safari");
                 (Examples.svc_live, "")])
             Examples.stocked_store)).
Proof.
  apply (C4_log_ordered_when_runs_complete
           [(Examples.svc_live, "burj khalifa");
            (Examples.svc_no_store, "desert safari");
            (Examples.svc_live, "")]
           Examples.stocked_store 3).
  - vm_compute. reflexivity.
  - vm_compute. repeat split.
Defined.

(** ** The scenarios of the specification, run *)

(** Scenario A: three stored passages; the prompt carries the persona, the
    three passages without their quotes, and the disambiguation sentence. *)
Example scenario_A_prompt :
  let prompt :=
    make_prompt "Burj Khalifa deals"
      (convert_passages_to_string Examples.deals) in
  generation_calls
    (trace (snd (main Examples.svc_live "Burj Khalifa deals"
                   Examples.stocked_store)))
  = [EvGenerate "gemini-pro" prompt]
  /\ PyStr.contains "You are a chatbot specializing" prompt = true
  /\ PyStr.contains "Burj Khalifa: At the Top ticket, 149 AED" prompt = true
  /\ PyStr.contains "Desert safari VIP evening tour, 250 AED" prompt = true
  /\ PyStr.contains "Burj Al Arab: afternoon tea, 600 AED" prompt = true
  /\ PyStr.contains "for Burj Khalifa only return Burj Khalifa deals" prompt
     = true.
Proof. cbv zeta. repeat split; vm_compute; reflexivity. Qed.

(** Scenario B: an empty store; the log gets the fallback answer and the
    model is not called. *)
Example scenario_B_fallback :
  let s' :=
    snd (main Examples.svc_live "desert safari" Examples.empty_store) in
  conversation_log s'
  = [user_message "desert safari"; assistant_message fallback_text]
  /\ generation_calls (trace s') = []
  /\ warnings (trace s') = [].
Proof. cbv zeta. repeat split; vm_compute; reflexivity. Qed.

(** Scenario C: the backend raises; the retriever returns null with a
    warning, and the session takes the next query. *)
Example scenario_C_backend_error :
  let s1 :=
    snd (main Examples.svc_no_store "desert safari" Examples.stocked_store) in
  let s2 := snd (main Examples.svc_live "burj khalifa" s1) in
  retrieved Examples.svc_no_store "desert safari" Examples.stocked_store
  = Return None
  /\ warnings (trace s1) = ["Error querying database: connection refused"]
  /\ conversation_log s2
     = [user_message "desert safari"; assistant_message fallback_text;
        user_message "burj khalifa";
        assistant_message "Here are today's deals."].
Proof. cbv zeta. repeat split; vm_compute; reflexivity. Qed.

(** ** Further properties of the prompt composer *)

Section ComposerMore.

Implicit Types (s t query block : string) (c : ascii)
  (passages : list string).

Lemma occurs_app c s t :
  PyStr.occurs c (s +:+ t) = PyStr.occurs c s || PyStr.occurs c t.
Proof.
  induction s as [|a s IH]; [done|]. rewrite str_app_cons. simpl.
  by rewrite IH, orb_assoc.
Qed.

Lemma remove_char_app c s t :
  PyStr.remove_char c (s +:+ t)
  = PyStr.remove_char c s +:+ PyStr.remove_char c t.
Proof.
  induction s as [|a s IH]; [done|]. rewrite str_app_cons. simpl.
  destruct (Ascii.eqb a c); [done|]. by rewrite str_app_cons, IH.
Qed.

Lemma remove_char_absent c s :
  PyStr.occurs c s = false -> PyStr.remove_char c s = s.
Proof.
  induction s as [|a s IH]; [done|]. simpl. intros H.
  apply orb_false_iff in H as [-> H]. by rewrite IH.
Qed.

Lemma remove_char_length c s :
  (String.length (PyStr.remove_char c s) + count_char c s
   = String.length s)%nat.
Proof.
  induction s as [|a s IH]; [done|]. simpl.
  destruct (Ascii.eqb a c); simpl; lia.
Qed.

Lemma count_char_remove_other c d s :
  Ascii.eqb c d = false ->
  count_char c (PyStr.remove_char d s) = count_char c s.
Proof.
  intros Hcd. induction s as [|a s IH]; [done|]. simpl.
  destruct (Ascii.eqb a d) eqn:Ead; simpl; rewrite IH; [|done].
  apply Ascii.eqb_eq in Ead as ->.
  rewrite Ascii.eqb_sym in Hcd. by rewrite Hcd.
Qed.

Lemma escaped_app s t : escaped (s +:+ t) = escaped s +:+ escaped t.
Proof.
  rewrite !escaped_strip_quotes. unfold strip_quotes.
  by rewrite !remove_char_app.
Qed.

Lemma escaped_quote_free s : quote_free s -> escaped s = s.
Proof.
  intros [H1 H2]. rewrite escaped_strip_quotes. unfold strip_quotes.
  by rewrite (remove_char_absent _ s H1), (remove_char_absent _ s H2).
Qed.

(** X1: escaping a second time changes nothing, and escaping changes a text
    exactly when the text holds a quote character. *)
Theorem X1_escaped_idempotent s :
  escaped (escaped s) = escaped s
  /\ (escaped s = s <-> quote_free s).
Proof.
  assert (Hq : quote_free (escaped s))
    by (split; [apply escaped_no_single_quote|apply escaped_no_double_quote]).
  split; [by apply escaped_quote_free|].
  split; [by intros <- | apply escaped_quote_free].
Qed.

(** X2: escaping goes through concatenation and through the joining of the
    passages: the escaped block is the block of the escaped passages. *)
Theorem X2_escaped_commutes_with_join passages :
  (forall s t, escaped (s +:+ t) = escaped s +:+ escaped t)
  /\ escaped (convert_passages_to_string passages)
     = convert_passages_to_string (map escaped passages).
Proof.
  split; [apply escaped_app|].
  unfold convert_passages_to_string, PyStr.join.
  induction passages as [|a [|b l] IH]; [done|done|].
  change (String.concat PyStr.nl (a :: b :: l))
    with (a +:+ PyStr.nl +:+ String.concat PyStr.nl (b :: l)).
  rewrite !escaped_app, IH. reflexivity.
Qed.

Lemma join_length passages :
  (String.length (convert_passages_to_string passages)
   = total_length passages + (length passages - 1))%nat.
Proof.
  unfold convert_passages_to_string, PyStr.join.
  induction passages as [|a [|b l] IH]; [done|cbn; lia|].
  change (String.concat PyStr.nl (a :: b :: l))
    with (a +:+ PyStr.nl +:+ String.concat PyStr.nl (b :: l)).
  rewrite !str_length_app, IH. cbn. lia.
Qed.

(** X3: the size of what the composer produces.  The block is as long as the
    passages together plus one line break between neighbours; the prompt is
    the 723 characters of the template, the query, and the block less its
    quote characters. *)
Theorem X3_prompt_size query passages :
  let block := convert_passages_to_string passages in
  (String.length block = total_length passages + (length passages - 1))%nat
  /\ (String.length (make_prompt query block) + quote_count block
      = 723 + String.length query + String.length block)%nat.
Proof.
  intros block. split; [apply join_length|].
  rewrite make_prompt_shape, !str_length_app, escaped_strip_quotes.
  unfold strip_quotes, quote_count.
  pose proof (remove_char_length PyStr.double_quote
                (PyStr.remove_char PyStr.single_quote block)) as H1.
  pose proof (remove_char_length PyStr.single_quote block) as H2.
  rewrite (count_char_remove_other PyStr.double_quote PyStr.single_quote)
    in H1 by reflexivity.
  change (String.length prompt_head) with 121%nat.
  change (String.length prompt_middle) with 53%nat.
  change (String.length prompt_tail) with 549%nat.
  lia.
Qed.

(** X4: which quote characters the whole prompt holds.  The template itself
    carries a single quote, so every prompt holds one; it holds a double
    quote exactly when the query does, whatever the passages are. *)
Theorem X4_quotes_of_the_prompt query block :
  PyStr.occurs PyStr.single_quote (make_prompt query block) = true
  /\ PyStr.occurs PyStr.double_quote (make_prompt query block)
     = PyStr.occurs PyStr.double_quote query.
Proof.
  rewrite make_prompt_shape, !occurs_app.
  rewrite escaped_no_double_quote.
  split; [reflexivity|].
  change (PyStr.occurs PyStr.double_quote prompt_head) with false.
  change (PyStr.occurs PyStr.double_quote prompt_middle) with false.
  change (PyStr.occurs PyStr.double_quote prompt_tail) with false.
  by rewrite !orb_false_r.
Qed.

(** X5: the query is put into the template as it is, so the prompt does not
    tell the query from the context: a query that carries the heading of the
    context section gives the same prompt as the shorter query with the rest
    moved to the passages. *)
Theorem X5_query_can_pose_as_context (a b c : string) :
  quote_free b ->
  make_prompt (a +:+ prompt_middle +:+ b) c
  = make_prompt a (b +:+ prompt_middle +:+ c).
Proof.
  intros Hb. rewrite !make_prompt_shape, !escaped_app.
  rewrite (escaped_quote_free b Hb).
  change (escaped prompt_middle) with prompt_middle.
  by rewrite !str_app_assoc.
Qed.

Lemma newline_split_unique (a a' r r' : string) :
  newline_free a -> newline_free a' ->
  a +:+ PyStr.nl +:+ r = a' +:+ PyStr.nl +:+ r' ->
  a = a' /\ r = r'.
Proof.
  unfold newline_free. revert a'.
  induction a as [|x a IH]; intros [|x' a'] Ha Ha' H.
  - by injection H.
  - injection H as <- _. simpl in Ha'. discriminate.
  - injection H as -> _. simpl in Ha. discriminate.
  - rewrite !str_app_cons in H. injection H as <- H.
    simpl in Ha, Ha'. apply orb_false_iff in Ha as [_ Ha].
    apply orb_false_iff in Ha' as [_ Ha'].
    destruct (IH a' Ha Ha' H) as [-> ->]. done.
Qed.

Lemma newline_free_not_joined (a a' r' : string) :
  newline_free a -> a = a' +:+ PyStr.nl +:+ r' -> False.
Proof.
  unfold newline_free. intros Ha ->.
  rewrite !occurs_app in Ha. simpl in Ha.
  by rewrite orb_true_r in Ha.
Qed.

(** X6: when no passage holds a line break, the block tells the passages:
    two non-empty sequences of such passages with the same block are the
    same sequence. *)
Theorem X6_join_injective passages passages' :
  passages <> [] -> passages' <> [] ->
  Forall newline_free passages -> Forall newline_free passages' ->
  convert_passages_to_string passages = convert_passages_to_string passages' ->
  passages = passages'.
Proof.
  unfold convert_passages_to_string, PyStr.join.
  revert passages'.
  induction passages as [|a [|b l] IH]; intros [|a' [|b' l']] Hn Hn' Hf Hf' H;
    try done.
  - cbn in H. by subst.
  - exfalso. apply Forall_cons in Hf as [Ha _].
    exact (newline_free_not_joined a a' _ Ha H).
  - exfalso. apply Forall_cons in Hf' as [Ha' _].
    exact (newline_free_not_joined a' a _ Ha' (eq_sym H)).
  - change (a +:+ PyStr.nl +:+ String.concat PyStr.nl (b :: l)
            = a' +:+ PyStr.nl +:+ String.concat PyStr.nl (b' :: l')) in H.
    apply Forall_cons in Hf as [Ha Hf]. apply Forall_cons in Hf' as [Ha' Hf'].
    destruct (newline_split_unique _ _ _ _ Ha Ha' H) as [-> Hr].
    f_equal. by apply IH.
Qed.

End ComposerMore.

(** ** Further properties of the retriever and of a run *)

Section RunsMore.

Variable svc : Services.

Implicit Types (q : string) (s : state) (evs : list event)
  (log : list message).

Lemma warnings_app evs1 evs2 :
  warnings (evs1 ++ evs2) = warnings evs1 ++ warnings evs2.
Proof. apply omap_app. Qed.

Lemma rendered_app evs1 evs2 :
  rendered (evs1 ++ evs2) = rendered evs1 ++ rendered evs2.
Proof. apply omap_app. Qed.

Lemma query_requests_app evs1 evs2 :
  query_requests (evs1 ++ evs2) = query_requests evs1 ++ query_requests evs2.
Proof. apply omap_app. Qed.

Lemma configure_calls_app evs1 evs2 :
  configure_calls (evs1 ++ evs2)
  = configure_calls evs1 ++ configure_calls evs2.
Proof. apply omap_app. Qed.

Lemma warnings_markdown log :
  warnings (map (fun m => EvMarkdown (line m)) log) = [].
Proof. by induction log. Qed.

Lemma configure_calls_markdown log :
  configure_calls (map (fun m => EvMarkdown (line m)) log) = [].
Proof. by induction log. Qed.

Lemma configure_calls_warning {A : Type} (o : outcome A) :
  configure_calls (warning_of o) = [].
Proof. by destruct o. Qed.

Lemma warnings_warning {A : Type} (o : outcome A) :
  warnings (warning_of o)
  = match o with
    | Return _ => []
    | Raise e => ["Error querying database: " +:+ str_exn e]
    end.
Proof. by destruct o. Qed.

(** X7: the retriever only reads.  It leaves the session state and the store
    as they are, asks the store once, never calls the model, and puts a
    warning on the page exactly when the call to the store raised; the guard
    on the documents keeps the indexing from ever failing. *)
Theorem X7_retriever_only_reads q (db : Collection) (n : option Z) s :
  let s' := snd (get_relevant_passages svc q db n s) in
  session_state s' = session_state s
  /\ database s' = database s
  /\ exists evs,
       trace s' = trace s ++ EvQuery db [q] (default 10%Z n) :: evs
       /\ generation_calls evs = []
       /\ query_requests evs = []
       /\ evs
          = match store_answer svc db [q] (default 10%Z n) s with
            | Return _ => []
            | Raise e => [EvError ("Error querying database: " +:+ str_exn e)]
            end.
Proof.
  cbv zeta. rewrite get_relevant_passages_run, store_answer_eq.
  cbn [snd session_state database trace with_trace].
  split; [done|]. split; [done|]. eexists. split; [reflexivity|].
  split; [apply generation_calls_warning|].
  split; [apply query_requests_warning|]. by destruct (answer _ _ _ _ _).
Qed.

(** X8: a run with nothing in the input is no turn.  It completes, asks the
    store nothing, does not call the model, leaves the log as it is (empty
    when the session is new) and displays it. *)
Theorem X8_empty_input_is_no_turn s :
  exists (s' : state) (evs : list event),
    main svc "" s = (Return tt, s')
    /\ conversation_log s' = conversation_log s
    /\ trace s' = trace s ++ evs
    /\ query_requests evs = []
    /\ generation_calls evs = []
    /\ warnings evs = []
    /\ rendered evs = map line (conversation_log s).
Proof.
  rewrite main_eq. unfold main_result. cbn [PyStr.truthy].
  eexists _, _. split; [reflexivity|].
  split; [apply conversation_log_insert|]. cbn [trace].
  split; [reflexivity|]. cbn.
  split; [apply query_requests_markdown|].
  split; [apply generation_calls_markdown|].
  split; [apply warnings_markdown | apply rendered_markdown].
Qed.


(** X10: when the model call raises, the run ends with that exception after
    the user message is in the log: the log has grown by the user message
    alone, the one call of the model is in the trace, and nothing of the log
    is displayed in that run. *)
Theorem X10_generation_failure q s p ps (e : exn) :
  q <> "" ->
  retrieved svc q s = Return (Some (p :: ps)) ->
  generate_content svc "gemini-pro"
    (make_prompt q (convert_passages_to_string (p :: ps))) = Raise e ->
  exists (s' : state) (evs : list event),
    main svc q s = (Raise e, s')
    /\ conversation_log s' = conversation_log s ++ [user_message q]
    /\ trace s' = trace s ++ evs
    /\ generation_calls evs
       = [EvGenerate "gemini-pro"
            (make_prompt q (convert_passages_to_string (p :: ps)))]
    /\ rendered evs = [].
Proof.
  intros Hq H Hgen. rewrite retrieved_eq in H. injection H as H.
  rewrite main_eq. unfold main_result. rewrite (truthy_nonempty q Hq).
  set (o := answer _ _ _ _ _) in *. rewrite H, Hgen.
  eexists _, _. split; [reflexivity|].
  split; [apply conversation_log_insert|]. cbn [trace].
  split; [reflexivity|]. split.
  - cbn. by rewrite !generation_calls_app, generation_calls_warning.
  - cbn. by rewrite !rendered_app, rendered_warning.
Qed.

(** X11: when the model answers, the run completes, the log grows by the
    user message and an assistant message whose content is the text of the
    model as it came, and the run displays the log with the new turn. *)
Theorem X11_generation_success q s p ps (text : string) :
  q <> "" ->
  retrieved svc q s = Return (Some (p :: ps)) ->
  generate_content svc "gemini-pro"
    (make_prompt q (convert_passages_to_string (p :: ps))) = Return text ->
  exists (s' : state) (evs : list event),
    main svc q s = (Return tt, s')
    /\ conversation_log s'
       = conversation_log s
         ++ [{| role := "user"; content := q |};
             {| role := "assistant"; content := text |}]
    /\ trace s' = trace s ++ evs
    /\ warnings evs = []
    /\ rendered evs = map line (conversation_log s').
Proof.
  intros Hq H Hgen. rewrite retrieved_eq in H. injection H as H.
  rewrite main_eq. unfold main_result. rewrite (truthy_nonempty q Hq).
  set (o := answer _ _ _ _ _) in *. rewrite H, Hgen.
  eexists _, _. split; [reflexivity|].
  rewrite conversation_log_insert.
  split; [reflexivity|]. cbn [trace]. split; [reflexivity|].
  assert (Hw : warnings (warning_of o) = []).
  { rewrite warnings_warning. destruct o as [r|e]; [done|discriminate H]. }
  split.
  - cbn. by rewrite !warnings_app, Hw, warnings_markdown.
  - cbn. rewrite !rendered_app, rendered_warning. cbn.
    apply rendered_markdown.
Qed.

(** The log a run leaves, whatever its outcome. *)
Lemma main_log q s :
  exists added,
    conversation_log (snd (main svc q s)) = conversation_log s ++ added
    /\ session_state (snd (main svc q s))
       = <[st.key := conversation_log s ++ added]> (session_state s)
    /\ (added = []
        \/ added = [user_message q]
        \/ exists r, added = [user_message q; assistant_message r])
    /\ user_contents added = (if PyStr.truthy q then [q] else []).
Proof.
  rewrite main_eq. unfold main_result.
  destruct (PyStr.truthy q).
  - destruct (passages_of _) as [[|p ps]|];
      [| destruct (generate_content _ _ _) |];
      cbn [snd session_state]; rewrite conversation_log_insert;
      eexists; (split; [reflexivity|]); (split; [reflexivity|]);
      (split; [|reflexivity]); eauto.
  - cbn [snd session_state]. rewrite conversation_log_insert.
    exists []. rewrite app_nil_r. auto.
Qed.

(** X12: the log only grows, and a run touches nothing else of the session
    state.  Whatever the outcome of the run, the log before is a prefix of
    the log after, at most two messages are added, the history key is set
    afterwards, and every other key of the session state is as before. *)
Theorem X12_log_append_only q s :
  let s' := snd (main svc q s) in
  exists added : list message,
    conversation_log s' = conversation_log s ++ added
    /\ (length added <= 2)%nat
    /\ session_state s' !! st.key = Some (conversation_log s')
    /\ (forall k : string,
          k <> st.key -> session_state s' !! k = session_state s !! k).
Proof.
  cbv zeta. destruct (main_log q s) as (added & Hl & Hs & Ha & _).
  exists added. split; [done|]. split.
  { destruct Ha as [->|[->|[r ->]]]; cbn; lia. }
  rewrite Hs, Hl. split; [apply lookup_insert_eq|].
  intros k Hk. by apply lookup_insert_ne.
Qed.

(** X13: a warning is surfaced in a run exactly when the call to the store
    raised, and it carries the message of the exception. *)
Theorem X13_warning_iff_backend_raised q s :
  exists evs : list event,
    trace (snd (main svc q s)) = trace s ++ evs
    /\ warnings evs
       = (if PyStr.truthy q then
            match store_answer svc the_collection [q] 5%Z (loaded s) with
            | Return _ => []
            | Raise e => ["Error querying database: " +:+ str_exn e]
            end
          else []).
Proof.
  unfold loaded. rewrite store_answer_eq, loadVectorDataBase_run.
  cbn [snd database]. rewrite main_eq. unfold main_result.
  destruct (PyStr.truthy q).
  - set (o := answer _ _ _ _ _).
    destruct (passages_of o) as [[|p ps]|];
      [| destruct (generate_content _ _ _) |];
      cbn [snd trace]; eexists; (split; [reflexivity|]); cbn;
      rewrite ?warnings_app, ?warnings_markdown, warnings_warning; cbn;
      by rewrite ?app_nil_r.
  - cbn [snd trace]. eexists. split; [reflexivity|]. cbn.
    apply warnings_markdown.
Qed.

(** X14: every run begins by configuring the client of the model, once, with
    the value of GEMINI_API_KEY in the environment, or with null when the
    variable is not set; a missing key does not end the run there. *)
Theorem X14_configures_first q s :
  exists evs : list event,
    trace (snd (main svc q s))
    = trace s ++ EvConfigure (environ svc !! "GEMINI_API_KEY") :: evs
    /\ configure_calls evs = [].
Proof.
  rewrite main_eq. unfold main_result.
  destruct (PyStr.truthy q).
  - set (o := answer _ _ _ _ _).
    destruct (passages_of o) as [[|p ps]|];
      [| destruct (generate_content _ _ _) |];
      cbn [snd trace]; eexists; (split; [reflexivity|]); cbn;
      rewrite ?configure_calls_app, ?configure_calls_markdown,
        ?configure_calls_warning; done.
  - cbn [snd trace]. eexists. split; [reflexivity|].
    apply configure_calls_markdown.
Qed.

(** X15: the display loop labels by exact comparison with the role of a user
    message: a message of any other role is shown under the label of the
    assistant. *)
Theorem X15_other_roles_shown_as_assistant log s :
  exists lines : list string,
    rendered (trace (snd (for_each log display s)))
    = rendered (trace s) ++ lines
    /\ forall (i : nat) (m : message),
         log !! i = Some m -> role m <> "user" ->
         lines !! i = Some ("**DuneGuide:** " +:+ content m).
Proof.
  rewrite for_each_display_run. cbn [snd trace with_trace].
  exists (map line log). rewrite rendered_app, rendered_markdown.
  split; [done|]. intros i m Hi Hr.
  rewrite list_lookup_fmap, Hi. cbn. unfold line, role_label.
  by rewrite bool_decide_eq_false_2.
Qed.

End RunsMore.

(** ** Further properties of a session *)

Section SessionMore.

Implicit Types (runs : list (Services * string)) (s : state).

Lemma user_contents_app (l1 l2 : list message) :
  user_contents (l1 ++ l2) = user_contents l1 ++ user_contents l2.
Proof. unfold user_contents. by rewrite List.filter_app, map_app. Qed.

(** X16: no query is lost.  After any session, with or without runs ended by
    an exception, the user messages of the log are the user messages it had
    at the start followed by the non-empty inputs of the runs, in order. *)
Theorem X16_user_messages_are_the_queries runs s :
  user_contents (conversation_log (session runs s))
  = user_contents (conversation_log s) ++ submitted runs.
Proof.
  revert s. induction runs as [|[svc q] runs IH]; intros s.
  - cbn. by rewrite app_nil_r.
  - cbn [session]. rewrite IH.
    destruct (main_log svc q s) as (added & -> & _ & _ & Hu).
    rewrite user_contents_app, Hu. unfold submitted. cbn.
    destruct (PyStr.truthy q); cbn; by rewrite <- ?app_assoc, ?app_nil_r.
Qed.

End SessionMore.

(** ** The store over a run and over a session *)

Section StoreMore.

Implicit Types (runs : list (Services * string)) (s : state) (q : string).

Lemma main_database svc q s :
  database (snd (main svc q s)) = opened (database s).
Proof.
  rewrite main_eq. unfold main_result.
  destruct (PyStr.truthy q); [|done].
  destruct (passages_of _) as [[|p ps]|];
    [| destruct (generate_content _ _ _) |]; done.
Qed.

Lemma main_query_requests svc q s :
  query_requests (trace (snd (main svc q s)))
  = query_requests (trace s)
    ++ (if PyStr.truthy q then [([q], 5%Z)] else []).
Proof.
  rewrite main_eq. unfold main_result.
  destruct (PyStr.truthy q).
  - set (o := answer _ _ _ _ _).
    destruct (passages_of o) as [[|p ps]|];
      [| destruct (generate_content _ _ _) |];
      cbn [snd trace]; rewrite query_requests_app; f_equal; cbn;
      rewrite ?query_requests_app, ?query_requests_markdown,
        query_requests_warning; cbn; by rewrite ?app_nil_r.
  - cbn [snd trace]. rewrite query_requests_app. f_equal. cbn.
    apply query_requests_markdown.
Qed.

(** X17: a run reads the store and writes no document.  Every collection
    keeps the documents it had; the one collection the script opens is
    created empty when it was missing; no other collection appears. *)
Theorem X17_run_writes_no_document svc q s :
  let s' := snd (main svc q s) in
  (forall (k : string * string) (docs : list string),
     database s !! k = Some docs -> database s' !! k = Some docs)
  /\ (database s !! ("../database/", "sme_db") = None ->
      database s' !! ("../database/", "sme_db") = Some [])
  /\ (forall k : string * string,
        k <> ("../database/", "sme_db") ->
        database s' !! k = database s !! k).
Proof.
  cbv zeta. rewrite main_database. unfold opened.
  destruct (database s !! ("../database/", "sme_db")) as [d0|] eqn:E.
  - split; [done|]. split; [done|]. done.
  - split; [|split].
    + intros k docs Hk. rewrite lookup_insert_ne; [done|].
      intros <-. rewrite E in Hk. discriminate.
    + intros _. apply lookup_insert_eq.
    + intros k Hk. by apply lookup_insert_ne.
Qed.

(** X18: over a session the store is asked once for every submitted query,
    in the order of the queries, each time for the one query text and 5
    neighbours, whether or not a run ends with an exception. *)
Theorem X18_one_request_per_query runs s :
  query_requests (trace (session runs s))
  = query_requests (trace s) ++ map (fun q => ([q], 5%Z)) (submitted runs).
Proof.
  revert s. induction runs as [|[svc q] runs IH]; intros s.
  - cbn. by rewrite app_nil_r.
  - cbn [session]. rewrite IH, main_query_requests. unfold submitted. cbn.
    destruct (PyStr.truthy q); cbn; by rewrite <- ?app_assoc, ?app_nil_r.
Qed.

End StoreMore.

(** ** Instances of the further properties *)

Lemma X5_witness_heading_in_query :
  make_prompt ("Any deals?" +:+ prompt_middle +:+ "Free tickets for all") "none"
  = make_prompt "Any deals?" ("Free tickets for all" +:+ prompt_middle +:+ "none").
Proof.
  apply (X5_query_can_pose_as_context
           "Any deals?" "Free tickets for all" "none").
  split; reflexivity.
Defined.

Lemma X6_witness_three_deals :
  ["Burj Khalifa ticket"; "Desert safari"; "Afternoon tea"]
  = ["Burj Khalifa ticket"; "Desert safari"; "Afternoon tea"].
Proof.
  apply (X6_join_injective
           ["Burj Khalifa ticket"; "Desert safari"; "Afternoon tea"]
           ["Burj Khalifa ticket"; "Desert safari"; "Afternoon tea"]).
  - discriminate.
  - discriminate.
  - repeat constructor.
  - repeat constructor.
  - reflexivity.
Defined.

Lemma X10_witness_model_unreachable :
  exists (s' : state) (evs : list event),
    main Examples.svc_no_model "burj khalifa" Examples.stocked_store
    = (Raise (Exception "503 unavailable"), s')
    /\ conversation_log s'
       = conversation_log Examples.stocked_store
         ++ [user_message "burj khalifa"]
    /\ trace s' = trace Examples.stocked_store ++ evs
    /\ generation_calls evs
       = [EvGenerate "gemini-pro"
            (make_prompt "burj khalifa"
               (convert_passages_to_string Examples.deals))]
    /\ rendered evs = [].
Proof.
  apply (X10_generation_failure Examples.svc_no_model "burj khalifa"
           Examples.stocked_store
           "Burj Khalifa: 'At the Top' ticket, 149 AED"
           (tail Examples.deals)).
  - discriminate.
  - vm_compute. reflexivity.
  - reflexivity.
Defined.

Lemma X11_witness_model_answers :
  exists (s' : state) (evs : list event),
    main Examples.svc_live "burj khalifa" Examples.stocked_store
    = (Return tt, s')
    /\ conversation_log s'
       = conversation_log Examples.stocked_store
         ++ [{| role := "user"; content := "burj khalifa" |};
             {| role := "assistant"; content := "Here are today's deals." |}]
    /\ trace s' = trace Examples.stocked_store ++ evs
    /\ warnings evs = []
    /\ rendered evs = map line (conversation_log s').
Proof.
  apply (X11_generation_success Examples.svc_live "burj khalifa"
           Examples.stocked_store
           "Burj Khalifa: 'At the Top' ticket, 149 AED"
           (tail Examples.deals)).
  - discriminate.
  - vm_compute. reflexivity.
  - reflexivity.
Defined.
